(** * GID Partners finance system: the aggregation and ledger core of [app.py]

    A shallow embedding of the functions of [src/app.py] that read and write
    the two tables of [finance.db] and derive the figures shown on the pages.

    Conventions of the embedding.
    - A [pandas] data frame read from a table is the list of its rows, in
      row order.
    - The [REAL] columns ([amount], [budget]) are exact rationals ([Q]) in
      the statements that do not turn on how sums are rounded; the
      calculation of the metrics is also given on binary64 amounts
      ([calculate_metrics64]), for the statements that do.
    - In the store a date is the record of its three components, compared
      component-wise, which is the byte order of the text [YYYY-MM-DD]
      that the form writes.  The monthly report, which converts the stored
      text itself, is also given from the text ([main_monthly_report_stored]).
    - An import sheet has columns among the six of the stated format
      and typed cells.
    - [CURRENT_TIMESTAMP] is an argument [now] of the writing operations. *)

From Stdlib Require Import List String Ascii Bool Arith ZArith QArith Lia.
From Stdlib Require Import Permutation Sorted.
From Stdlib Require Import PrimFloat.
Import ListNotations.

Local Open Scope string_scope.
Local Open Scope list_scope.
Local Open Scope Q_scope.

(** ** Data model: the two tables created by [init_db] *)

Record Date := mkDate { year : nat; month : nat; day : nat }.

Record Transaction := mkTransaction {
  t_id : Z;                       (* INTEGER PRIMARY KEY AUTOINCREMENT *)
  t_date : Date;                  (* TEXT NOT NULL *)
  t_type : string;                (* TEXT NOT NULL *)
  t_category : string;            (* TEXT NOT NULL *)
  t_project : option string;      (* TEXT *)
  t_description : option string;  (* TEXT *)
  t_amount : Q;                   (* REAL NOT NULL *)
  t_created_at : string           (* TIMESTAMP DEFAULT CURRENT_TIMESTAMP *)
}.

Record Project := mkProject {
  p_id : Z;                       (* INTEGER PRIMARY KEY AUTOINCREMENT *)
  p_name : string;                (* TEXT UNIQUE NOT NULL *)
  p_client : option string;       (* TEXT *)
  p_budget : option Q;            (* REAL *)
  p_status : string;              (* TEXT DEFAULT 'active' *)
  p_created_at : string           (* TIMESTAMP DEFAULT CURRENT_TIMESTAMP *)
}.

(** The database file: both tables, rows in insertion order. *)
Record Db := mkDb {
  transactions : list Transaction;
  projects : list Project
}.

(** The two labels of the [type] column. *)
Definition income_label : string := "수입".
Definition expense_label : string := "지출".

(** ** Numbers *)

Definition Qlt_bool (a b : Q) : bool := negb (Qle_bool b a).

(** [Series.sum()]: the entries added up from zero. *)
Definition sum (xs : list Q) : Q := fold_left Qplus xs 0.

(** ** [calculate_metrics] *)

(** [df[df['type'] == label]['amount']] *)
Definition amounts_of_type (label : string) (df : list Transaction) : list Q :=
  map t_amount (filter (fun t => String.eqb (t_type t) label) df).

Definition calculate_metrics (df : list Transaction) : Q * Q * Q * Q :=
  match df with
  | [] => (0, 0, 0, 0)
  | _ :: _ =>
      let income := sum (amounts_of_type income_label df) in
      let expense := sum (amounts_of_type expense_label df) in
      let profit := income - expense in
      let profit_margin :=
        if Qlt_bool 0 income then profit / income * 100 else 0 in
      (income, expense, profit, profit_margin)
  end.

(** The figures as the specification words them: a total per type, by
    recursion over the records. *)
Fixpoint total_of_type (label : string) (df : list Transaction) : Q :=
  match df with
  | [] => 0
  | t :: rest =>
      if String.eqb (t_type t) label
      then t_amount t + total_of_type label rest
      else total_of_type label rest
  end.

Definition total_income := total_of_type income_label.
Definition total_expense := total_of_type expense_label.

Definition metrics_spec (df : list Transaction) : Q * Q * Q * Q :=
  let net_profit := total_income df - total_expense df in
  (total_income df, total_expense df, net_profit,
   if Qlt_le_dec 0 (total_income df)
   then net_profit / total_income df * 100
   else 0).

(** ** The ledger store *)

(** The row id given by [AUTOINCREMENT]: one more than the largest id in
    use (rows are never deleted). *)
Definition next_id (ids : list Z) : Z := (1 + fold_right Z.max 0 ids)%Z.

Definition add_transaction (db : Db) (now : string)
    (trans_date : Date) (trans_type category : string)
    (project description : option string) (amount : Q) : Db :=
  mkDb (transactions db ++
          [mkTransaction (next_id (map t_id (transactions db)))
             trans_date trans_type category project description amount now])
       (projects db).

(** [add_project]: the [UNIQUE] constraint on [name] makes the [INSERT]
    raise [IntegrityError], which is answered with [False]. *)
Definition add_project (db : Db) (now : string)
    (name : string) (client : option string) (budget : option Q) : Db * bool :=
  if existsb (String.eqb name) (map p_name (projects db))
  then (db, false)
  else (mkDb (transactions db)
             (projects db ++
                [mkProject (next_id (map p_id (projects db)))
                   name client budget "active" now]),
        true).

(** Order of the [date] column. *)
Definition date_leb (a b : Date) : bool :=
  (year a <? year b)%nat ||
  ((year a =? year b)%nat &&
   ((month a <? month b)%nat ||
    ((month a =? month b)%nat && (day a <=? day b)%nat))).

(** [date BETWEEN start AND end] *)
Definition between (start_date end_date d : Date) : bool :=
  date_leb start_date d && date_leb d end_date.

(** Sorting by insertion; an element goes before the first one it is not
    above, so that equal keys keep their order. *)
Fixpoint insert_by {A : Type} (leb : A -> A -> bool) (x : A) (l : list A)
  : list A :=
  match l with
  | [] => [x]
  | y :: rest => if leb x y then x :: l else y :: insert_by leb x rest
  end.

Fixpoint sort_by {A : Type} (leb : A -> A -> bool) (l : list A) : list A :=
  match l with
  | [] => []
  | x :: rest => insert_by leb x (sort_by leb rest)
  end.

(** [ORDER BY date DESC]; rows of one date are left in table order (no
    statement below depends on the order among them). *)
Definition date_desc (a b : Transaction) : bool :=
  date_leb (t_date b) (t_date a).

Definition order_by_date_desc : list Transaction -> list Transaction :=
  sort_by date_desc.

(** Date-descending: no row is followed by a row of a later date. *)
Definition date_descending (df : list Transaction) : Prop :=
  Sorted (fun a b => date_leb (t_date b) (t_date a) = true) df.

(** [get_transactions]: the [WHERE] clause is added only under
    [if start_date and end_date]. *)
Definition get_transactions (db : Db) (start_date end_date : option Date)
  : list Transaction :=
  let selected :=
    match start_date, end_date with
    | Some s, Some e => filter (fun t => between s e (t_date t)) (transactions db)
    | _, _ => transactions db
    end in
  order_by_date_desc selected.

(** [get_projects]: [SELECT * FROM projects WHERE status='active'] *)
Definition get_projects (db : Db) : list Project :=
  filter (fun p => String.eqb (p_status p) "active") (projects db).

(** ** [project_profitability] *)

Definition notna {A : Type} (o : option A) : bool :=
  match o with Some _ => true | None => false end.

(** The keys of a [groupby]: the distinct values, ascending. *)
Definition group_keys (ks : list string) : list string :=
  sort_by String.leb (nodup string_dec ks).

Fixpoint project_values (df : list Transaction) : list string :=
  match df with
  | [] => []
  | t :: rest =>
      match t_project t with
      | Some p => p :: project_values rest
      | None => project_values rest
      end
  end.

Definition has_project (k : string) (t : Transaction) : bool :=
  match t_project t with
  | Some p => String.eqb p k
  | None => false
  end.

(** The aggregation [lambda] on the rows [x] of one group. *)
Definition net_amount (x : list Transaction) : Q :=
  sum (amounts_of_type income_label x) - sum (amounts_of_type expense_label x).

(** The frame before sorting: one row per project, keys ascending. *)
Definition project_data (df : list Transaction) : list (string * Q) :=
  let with_project := filter (fun t => notna (t_project t)) df in
  map (fun k => (k, net_amount (filter (has_project k) with_project)))
      (group_keys (project_values with_project)).

(** [sort_values('순이익', ascending=False)] is the library's sort on the one
    column with its default algorithm, which does not promise an order
    among equal keys.  The function is taken as a parameter together with
    what the library does promise: the rows are kept and come out in
    descending order of the column. *)
Definition net_desc (a b : string * Q) : Prop := snd b <= snd a.

Definition sorts_descending (sort_values : list (string * Q) -> list (string * Q))
  : Prop :=
  forall l, Permutation l (sort_values l) /\ Sorted net_desc (sort_values l).

Definition project_profitability
    (sort_values : list (string * Q) -> list (string * Q))
    (df : list Transaction) : list (string * Q) :=
  match df with
  | [] => []
  | _ :: _ => sort_values (project_data df)
  end.

(** A sort that meets the promise and keeps equal keys in frame order, as
    the library's sort does on a short frame. *)
Definition sort_values_stable : list (string * Q) -> list (string * Q) :=
  sort_by (fun a b => Qle_bool (snd b) (snd a)).

(** The net contribution of a project as the specification words it. *)
Fixpoint project_total (label k : string) (df : list Transaction) : Q :=
  match df with
  | [] => 0
  | t :: rest =>
      if has_project k t && String.eqb (t_type t) label
      then t_amount t + project_total label k rest
      else project_total label k rest
  end.

Definition net_contribution (k : string) (df : list Transaction) : Q :=
  project_total income_label k df - project_total expense_label k df.

(** ** The monthly report of the report page *)

(** [dt.to_period('M')]: year and month of the date. *)
Definition Period : Type := nat * nat.

Definition to_period_M (d : Date) : Period := (year d, month d).

Definition period_eq_dec (a b : Period) : {a = b} + {a <> b}.
Proof. decide equality; apply Nat.eq_dec. Defined.

Definition period_eqb (a b : Period) : bool :=
  (fst a =? fst b)%nat && (snd a =? snd b)%nat.

Definition period_leb (a b : Period) : bool :=
  (fst a <? fst b)%nat || ((fst a =? fst b)%nat && (snd a <=? snd b)%nat).

Definition month_keys (ms : list Period) : list Period :=
  sort_by period_leb (nodup period_eq_dec ms).

Definition net_label : string := "순이익".

(** A row of the pivot: its month, then the value of each column in
    column order. *)
Definition Row : Type := Period * list (string * Q).

Definition lookup_column (c : string) (cells : list (string * Q)) : option Q :=
  option_map snd (find (fun cv => String.eqb (fst cv) c) cells).

(** [frame.get(c, default)] *)
Definition get_column (c : string) (cells : list (string * Q)) (default : Q) : Q :=
  match lookup_column c cells with
  | Some v => v
  | None => default
  end.

(** [frame[c] = v]: the column is replaced where it stands, or added last. *)
Fixpoint set_column (c : string) (v : Q) (cells : list (string * Q))
  : list (string * Q) :=
  match cells with
  | [] => [(c, v)]
  | (c', v') :: rest =>
      if String.eqb c' c then (c, v) :: rest
      else (c', v') :: set_column c v rest
  end.

Definition in_period (m : Period) (t : Transaction) : bool :=
  period_eqb (to_period_M (t_date t)) m.

(** The pivot cell of a month and a type: the group's sum, and [fillna(0)]
    where the month has no row of the type. *)
Definition pivot_cell (df : list Transaction) (m : Period) (label : string) : Q :=
  match amounts_of_type label (filter (in_period m) df) with
  | [] => 0
  | x :: xs => sum (x :: xs)
  end.

Definition monthly_pivot (df : list Transaction) : list Row :=
  let months := month_keys (map (fun t => to_period_M (t_date t)) df) in
  let types := group_keys (map t_type df) in
  map (fun m =>
         let cells := map (fun label => (label, pivot_cell df m label)) types in
         (m, set_column net_label
               (get_column income_label cells 0 - get_column expense_label cells 0)
               cells))
      months.

(** The report page shows the table only [if not df.empty]. *)
Definition main_monthly_report (df : list Transaction) : option (list Row) :=
  match df with
  | [] => None
  | _ :: _ => Some (monthly_pivot df)
  end.


(** ** Interactive entry *)

Inductive Feedback :=
| st_success      (* the green confirmation *)
| st_error.       (* the red message; nothing was written *)

(** The save button of the transaction form. *)
Definition main_save_transaction (db : Db) (now : string)
    (trans_date : Date) (trans_type category : string)
    (project description : option string) (amount : Q) : Db * Feedback :=
  if Qlt_bool 0 amount
  then (add_transaction db now trans_date trans_type category
          project description amount, st_success)
  else (db, st_error).

(** The save button of the project form. *)
Definition main_save_project (db : Db) (now : string)
    (proj_name : string) (proj_client : option string) (proj_budget : option Q)
  : Db * Feedback :=
  if String.eqb proj_name "" then (db, st_error)
  else
    let (db', added) := add_project db now proj_name proj_client proj_budget in
    if added then (db', st_success) else (db', st_error).

(** ** Import *)

(** The columns of the file format named on the import tab. *)
Inductive Column :=
| col_date | col_type | col_category | col_project | col_description
| col_amount.

Definition Column_eqb (a b : Column) : bool :=
  match a, b with
  | col_date, col_date | col_type, col_type | col_category, col_category
  | col_project, col_project | col_description, col_description
  | col_amount, col_amount => true
  | _, _ => false
  end.

(** A row of the uploaded sheet; [None] is an empty cell. *)
Record ImportRow := mkImportRow {
  i_date : option Date;
  i_type : option string;
  i_category : option string;
  i_project : option string;
  i_description : option string;
  i_amount : option Q
}.

(** The frame read from the sheet: the columns it has, and its rows.  The
    cells of a column the sheet does not have are not looked at. *)
Record ImportFrame := mkImportFrame {
  columns : list Column;
  rows : list ImportRow
}.

Definition has_column (cols : list Column) (c : Column) : bool :=
  existsb (Column_eqb c) cols.

(** The value bound to column [c] by the [INSERT]: the cell when the frame
    has the column, [NULL] otherwise. *)
Definition bound {A : Type} (cols : list Column) (c : Column) (cell : option A)
  : option A :=
  if has_column cols c then cell else None.

(** One [INSERT]; [None] is the [IntegrityError] of a [NOT NULL] column. *)
Definition insert_row (now : string) (cols : list Column)
    (table : list Transaction) (r : ImportRow) : option (list Transaction) :=
  match bound cols col_date (i_date r), bound cols col_type (i_type r),
        bound cols col_category (i_category r),
        bound cols col_amount (i_amount r) with
  | Some d, Some ty, Some c, Some a =>
      Some (table ++
              [mkTransaction (next_id (map t_id table)) d ty c
                 (bound cols col_project (i_project r))
                 (bound cols col_description (i_description r)) a now])
  | _, _, _, _ => None
  end.

(** The inserts of [to_sql(..., if_exists='append', index=False)], one per
    row, in one database transaction. *)
Fixpoint insert_rows (now : string) (cols : list Column)
    (table : list Transaction) (rs : list ImportRow)
  : option (list Transaction) :=
  match rs with
  | [] => Some table
  | r :: rest =>
      match insert_row now cols table r with
      | Some table' => insert_rows now cols table' rest
      | None => None
      end
  end.

Inductive ImportOutcome :=
| imported (n : nat)     (* the message with [len(import_df)] *)
| import_error.          (* [except Exception]: the red message *)

(** The import button: commit when every insert went through, otherwise
    the table is as before. *)
Definition main_import (db : Db) (now : string) (import_df : ImportFrame)
  : Db * ImportOutcome :=
  match insert_rows now (columns import_df) (transactions db) (rows import_df) with
  | Some table' => (mkDb table' (projects db), imported (List.length (rows import_df)))
  | None => (db, import_error)
  end.

Definition required (c : Column) : bool :=
  match c with
  | col_date | col_type | col_category | col_amount => true
  | col_project | col_description => false
  end.

Definition all_columns : list Column :=
  [col_date; col_type; col_category; col_project; col_description; col_amount].

(** A well-formed batch: the sheet has the six columns of the stated
    format. *)
Definition well_formed (b : ImportFrame) : bool :=
  forallb (has_column (columns b)) all_columns.

(** Every row has a value in each column the table declares [NOT NULL]. *)
Definition row_filled (r : ImportRow) : bool :=
  notna (i_date r) && notna (i_type r) && notna (i_category r)
  && notna (i_amount r).

Definition rows_filled (b : ImportFrame) : bool := forallb row_filled (rows b).

(** ** Export *)

Inductive Sheet :=
| sheet_transactions (name : string) (content : list Transaction)
| sheet_projects (name : string) (content : list Project).

(** The export tab: a workbook only [if not df.empty], the second sheet
    only [if not projects.empty]. *)
Definition main_export (db : Db) (df : list Transaction) : option (list Sheet) :=
  match df with
  | [] => None
  | _ :: _ =>
      Some (sheet_transactions "거래내역" df ::
            match get_projects db with
            | [] => []
            | p :: ps => [sheet_projects "프로젝트" (p :: ps)]
            end)
  end.

(** ** Sample data for the worked cases *)

Definition sample_transaction (id : Z) (d : Date) (label : string)
    (project : option string) (amount : Q) : Transaction :=
  mkTransaction id d label "기타" project None amount "2024-04-01 09:00:00".

Definition sample_ledger : list Transaction :=
  [ sample_transaction 1 (mkDate 2024 3 1) income_label (Some "A") 100;
    sample_transaction 2 (mkDate 2024 3 31) expense_label (Some "B") 50;
    sample_transaction 3 (mkDate 2024 2 10) expense_label None 30;
    sample_transaction 4 (mkDate 2024 2 10) income_label (Some "B") 50 ].

Definition sample_db : Db :=
  mkDb sample_ledger
       [ mkProject 1 "A" (Some "Acme") (Some 1000) "active" "2024-01-01 09:00:00";
         mkProject 2 "B" None None "archived" "2024-01-02 09:00:00" ].

(** What an appended row holds of the sheet row it comes from. *)
Definition row_matches (r : ImportRow) (t : Transaction) : Prop :=
  i_date r = Some (t_date t) /\ i_type r = Some (t_type t) /\
  i_category r = Some (t_category t) /\ i_project r = t_project t /\
  i_description r = t_description t /\ i_amount r = Some (t_amount t).

(** The workbook with both sections. *)
Definition export_has_two_sections (db : Db) (df : list Transaction) : Prop :=
  exists name1 name2,
    main_export db df =
    Some [sheet_transactions name1 df; sheet_projects name2 (get_projects db)].

Definition archived_only_db : Db :=
  mkDb sample_ledger
       [ mkProject 1 "B" None None "archived" "2024-01-02 09:00:00" ].

(** A sheet with its header line only, and no [amount] column. *)
Definition headers_without_amount : ImportFrame :=
  mkImportFrame
    [col_date; col_type; col_category; col_project; col_description] [].

(** A sheet in the stated format whose second row has no date. *)
Definition batch_with_empty_cell : ImportFrame :=
  mkImportFrame all_columns
    [ mkImportRow (Some (mkDate 2024 5 2)) (Some income_label) (Some "자문료")
        None None (Some 1000);
      mkImportRow None (Some expense_label) (Some "마케팅")
        None None (Some 500) ].

(** A sheet in the stated format whose amounts are zero and negative. *)
Definition sample_batch : ImportFrame :=
  mkImportFrame all_columns
    [ mkImportRow (Some (mkDate 2024 5 2)) (Some income_label) (Some "자문료")
        None None (Some 0);
      mkImportRow (Some (mkDate 2024 5 3)) (Some expense_label) (Some "마케팅")
        (Some "A") (Some "x") (Some (-5)) ].


(** A ledger with a single expense. *)
Definition expense_only_ledger : list Transaction :=
  [ sample_transaction 1 (mkDate 2024 3 5) expense_label None 50 ].

(** The two-project case of the specification. *)
Definition two_project_ledger : list Transaction :=
  [ sample_transaction 1 (mkDate 2024 3 1) income_label (Some "A") 100;
    sample_transaction 2 (mkDate 2024 3 31) expense_label (Some "B") 50 ].

(** ** The other views of the pages *)

(** [df[df['type'] == label].groupby('category')['amount'].sum()]: the
    pie chart of the dashboard and both halves of the income statement. *)
Definition category_sums (label : string) (df : list Transaction)
  : list (string * Q) :=
  let rows_of_type := filter (fun t => String.eqb (t_type t) label) df in
  map (fun c =>
         (c, sum (map t_amount
                    (filter (fun t => String.eqb (t_category t) c) rows_of_type))))
      (group_keys (map t_category rows_of_type)).

(** The income statement of the report page, shown [if not df.empty]:
    the two frames, their totals and the net profit. *)
Definition main_income_statement (df : list Transaction)
  : option (list (string * Q) * list (string * Q) * Q * Q * Q) :=
  match df with
  | [] => None
  | _ :: _ =>
      let income_df := category_sums income_label df in
      let expense_df := category_sums expense_label df in
      let income_total := sum (map snd income_df) in
      let expense_total := sum (map snd expense_df) in
      Some (income_df, expense_df, income_total, expense_total,
            income_total - expense_total)
  end.

(** [min(a, b)] of Python: [b] only when it is below [a]. *)
Definition py_min (a b : Q) : Q := if Qlt_bool b a then b else a.

(** [st.progress(value)]: the bar is drawn for a value from 0 to 1 and
    raises for any other. *)
Inductive Progress :=
| no_bar                    (* no budget above zero: the bar is not called *)
| bar (value : Q)           (* the bar drawn at the value *)
| bar_raises (value : Q).   (* the value is out of range *)

Definition st_progress (value : Q) : Progress :=
  if Qle_bool 0 value && Qle_bool value 1 then bar value else bar_raises value.

(** The figures of one project on the project page: nothing when the
    window has no transaction of the project, otherwise income, expense,
    profit, written first, and, for a budget above zero, the progress bar. *)
Definition main_project_status (df : list Transaction) (proj : Project)
  : option (Q * Q * Q * Progress) :=
  match filter (has_project (p_name proj)) df with
  | [] => None
  | t :: rest =>
      let proj_trans := t :: rest in
      let proj_income := sum (amounts_of_type income_label proj_trans) in
      let proj_expense := sum (amounts_of_type expense_label proj_trans) in
      let proj_profit := proj_income - proj_expense in
      let progress :=
        match p_budget proj with
        | Some budget =>
            if Qlt_bool 0 budget
            then st_progress (py_min (proj_income / budget) 1)
            else no_bar
        | None => no_bar
        end in
      Some (proj_income, proj_expense, proj_profit, progress)
  end.

(** [Series.unique()]: the distinct values in order of first appearance. *)
Fixpoint unique (xs : list string) : list string :=
  match xs with
  | [] => []
  | x :: rest => x :: filter (fun y => negb (String.eqb y x)) (unique rest)
  end.

Definition isin (x : string) (values : list string) : bool :=
  existsb (String.eqb x) values.

(** The three selections of the transaction list; an empty selection does
    not restrict. *)
Definition main_filtered_df (type_filter cat_filter proj_filter : list string)
    (df : list Transaction) : list Transaction :=
  let filtered_df := df in
  let filtered_df :=
    match type_filter with
    | [] => filtered_df
    | _ :: _ => filter (fun t => isin (t_type t) type_filter) filtered_df
    end in
  let filtered_df :=
    match cat_filter with
    | [] => filtered_df
    | _ :: _ => filter (fun t => isin (t_category t) cat_filter) filtered_df
    end in
  let filtered_df :=
    match proj_filter with
    | [] => filtered_df
    | _ :: _ =>
        filter (fun t => match t_project t with
                         | Some p => isin p proj_filter
                         | None => false
                         end) filtered_df
    end in
  filtered_df.


(** A row of the sheet passes the [NOT NULL] checks of its [INSERT]. *)
Definition insertable (cols : list Column) (r : ImportRow) : bool :=
  notna (bound cols col_date (i_date r))
  && notna (bound cols col_type (i_type r))
  && notna (bound cols col_category (i_category r))
  && notna (bound cols col_amount (i_amount r)).

(** The order of the [date] column, as a proposition. *)
Definition date_le (a b : Date) : Prop :=
  (year a < year b)%nat \/
  (year a = year b /\
   ((month a < month b)%nat \/ (month a = month b /\ (day a <= day b)%nat))).

(** ** The transaction form *)

(** The options of the three select boxes. *)
Definition type_options : list string := [income_label; expense_label].

Definition category_options (trans_type : string) : list string :=
  if String.eqb trans_type income_label
  then ["컨설팅 수입"; "자문료"; "교육/강의"; "기타 수입"]
  else ["인건비"; "사무실 운영"; "마케팅"; "IT/소프트웨어";
        "교통/출장"; "접대/회의"; "세금/수수료"; "기타 지출"].

Definition no_project : string := "없음".

Definition project_list (db : Db) : list string :=
  match get_projects db with
  | [] => [no_project]
  | p :: ps => [no_project] ++ map p_name (p :: ps)
  end.

(** The form as a whole: the choice [없음] stands for no project, and the
    save button does the rest. *)
Definition main_transaction_form (db : Db) (now : string) (trans_date : Date)
    (trans_type category choice description : string) (amount : Q)
  : Db * Feedback :=
  let project := if String.eqb choice no_project then None else Some choice in
  main_save_transaction db now trans_date trans_type category
    project (Some description) amount.

(** What a row entered through the form satisfies. *)
Definition form_entry (db : Db) (t : Transaction) : Prop :=
  In (t_type t) type_options /\
  In (t_category t) (category_options (t_type t)) /\
  0 < t_amount t /\
  (t_project t = None \/
   exists p, In p (get_projects db) /\ t_project t = Some (p_name p)
             /\ p_name p <> no_project).

(** ** The figures in binary64 *)













(** ** The date column as text *)

(** The frame as the query returns it: the [date] column is still the
    stored text.  The app writes two spellings: [YYYY-MM-DD] from the form
    ([str(trans_date)]) and [YYYY-MM-DD HH:MM:SS] from an imported sheet
    whose cells are dates.  Other spellings that [pd.to_datetime] may read
    are not covered: the model takes them as not convertible. *)
Record StoredRow := mkStoredRow {
  st_id : Z;
  st_date : string;
  st_type : string;
  st_category : string;
  st_project : option string;
  st_description : option string;
  st_amount : Q;
  st_created_at : string
}.

(** The row with its date converted. *)
Definition typed (d : Date) (r : StoredRow) : Transaction :=
  mkTransaction (st_id r) d (st_type r) (st_category r) (st_project r)
    (st_description r) (st_amount r) (st_created_at r).

Definition digit_of (c : ascii) : option nat :=
  let n := nat_of_ascii c in
  if (48 <=? n)%nat && (n <=? 57)%nat then Some (n - 48)%nat else None.

(** The number written by a run of digits; [None] on any other sign. *)
Fixpoint number_of (acc : nat) (cs : list ascii) : option nat :=
  match cs with
  | [] => Some acc
  | c :: rest =>
      match digit_of c with
      | Some d => number_of (10 * acc + d)%nat rest
      | None => None
      end
  end.

Definition is_leap (y : nat) : bool :=
  ((y mod 4 =? 0) && (negb (y mod 100 =? 0) || (y mod 400 =? 0)))%nat.

Definition days_in_month (y m : nat) : nat :=
  match m with
  | 1 | 3 | 5 | 7 | 8 | 10 | 12 => 31
  | 4 | 6 | 9 | 11 => 30
  | 2 => if is_leap y then 29 else 28
  | _ => 0
  end%nat.

(** The days a nanosecond timestamp can hold. *)
Definition timestamp_first_day : Date := mkDate 1677 9 22.
Definition timestamp_last_day : Date := mkDate 2262 4 11.

(** A calendar date that converts. *)
Definition valid_date (d : Date) : bool :=
  ((1 <=? month d) && (month d <=? 12) && (1 <=? day d)
   && (day d <=? days_in_month (year d) (month d)))%nat
  && date_leb timestamp_first_day d && date_leb d timestamp_last_day.

Definition dash : ascii := "-"%char.
Definition colon : ascii := ":"%char.
Definition blank : ascii := " "%char.

Definition date_of_signs (y m d : list ascii) : option Date :=
  match number_of 0 y, number_of 0 m, number_of 0 d with
  | Some yy, Some mm, Some dd =>
      if valid_date (mkDate yy mm dd) then Some (mkDate yy mm dd) else None
  | _, _, _ => None
  end.

Definition time_of_signs (h m s : list ascii) : bool :=
  match number_of 0 h, number_of 0 m, number_of 0 s with
  | Some hh, Some mm, Some ss => ((hh <? 24) && (mm <? 60) && (ss <? 60))%nat
  | _, _, _ => false
  end.

(** [YYYY-MM-DD] *)
Definition parse_date (s : string) : option Date :=
  match list_ascii_of_string s with
  | [y1; y2; y3; y4; s1; m1; m2; s2; d1; d2] =>
      if Ascii.eqb s1 dash && Ascii.eqb s2 dash
      then date_of_signs [y1; y2; y3; y4] [m1; m2] [d1; d2]
      else None
  | _ => None
  end.

(** [YYYY-MM-DD HH:MM:SS] *)
Definition parse_timestamp (s : string) : option Date :=
  match list_ascii_of_string s with
  | [y1; y2; y3; y4; s1; m1; m2; s2; d1; d2; s3;
     h1; h2; s4; n1; n2; s5; c1; c2] =>
      if Ascii.eqb s1 dash && Ascii.eqb s2 dash && Ascii.eqb s3 blank
         && Ascii.eqb s4 colon && Ascii.eqb s5 colon
         && time_of_signs [h1; h2] [n1; n2] [c1; c2]
      then date_of_signs [y1; y2; y3; y4] [m1; m2] [d1; d2]
      else None
  | _ => None
  end.

Inductive DateFormat := format_date | format_timestamp.

Definition parse_as (f : DateFormat) (s : string) : option Date :=
  match f with
  | format_date => parse_date s
  | format_timestamp => parse_timestamp s
  end.

(** The format is taken from the first text. *)
Definition guess_format (s : string) : option DateFormat :=
  if notna (parse_date s) then Some format_date
  else if notna (parse_timestamp s) then Some format_timestamp
  else None.

Fixpoint convert_rows (f : DateFormat) (df : list StoredRow)
  : option (list Transaction) :=
  match df with
  | [] => Some []
  | r :: rest =>
      match parse_as f (st_date r), convert_rows f rest with
      | Some d, Some frame => Some (typed d r :: frame)
      | _, _ => None
      end
  end.

(** [df['date'] = pd.to_datetime(df['date'])]: every text is read in the
    format of the first; [None] stands for the exception raised when one
    of them does not fit. *)
Definition to_datetime (df : list StoredRow) : option (list Transaction) :=
  match df with
  | [] => Some []
  | first :: _ =>
      match guess_format (st_date first) with
      | Some f => convert_rows f df
      | None => None
      end
  end.

Inductive ReportOutcome :=
| report_info                       (* no data: the information line *)
| report_raises                     (* the conversion of the dates raised *)
| report_table (rows : list Row).   (* the table shown *)

(** The monthly report from the frame of the query. *)
Definition main_monthly_report_stored (df : list StoredRow) : ReportOutcome :=
  match df with
  | [] => report_info
  | _ :: _ =>
      match to_datetime df with
      | Some frame => report_table (monthly_pivot frame)
      | None => report_raises
      end
  end.


Definition stored (id : Z) (date label : string) (amount : Q) : StoredRow :=
  mkStoredRow id date label "기타" None None amount "2024-04-01 09:00:00".




Definition stored_sample : list StoredRow :=
  [ stored 1 "2024-03-01" income_label 100;
    stored 2 "2024-03-31" expense_label 50;
    stored 3 "2024-02-10" expense_label 30;
    stored 4 "2024-02-10" income_label 50 ].


(** * Proofs *)

(** ** Addition of rationals, up to syntactic equality *)

Lemma Qplus_comm_eq (a b : Q) : a + b = b + a.
Proof.
  destruct a as [an ad], b as [bn bd]. unfold Qplus. cbn [Qnum Qden].
  f_equal; [ring | apply Pos.mul_comm].
Qed.

Lemma Qplus_assoc_eq (a b c : Q) : a + (b + c) = (a + b) + c.
Proof.
  destruct a as [an ad], b as [bn bd], c as [cn cd].
  unfold Qplus. cbn [Qnum Qden].
  f_equal; [rewrite !Pos2Z.inj_mul; ring | apply Pos.mul_assoc].
Qed.

Lemma Qplus_0_l_eq (a : Q) : 0 + a = a.
Proof.
  destruct a as [an ad]. unfold Qplus. cbn [Qnum Qden].
  f_equal. rewrite Z.mul_0_l, Z.mul_1_r. reflexivity.
Qed.

Lemma Qlt_bool_iff (a b : Q) : Qlt_bool a b = true <-> a < b.
Proof.
  unfold Qlt_bool. rewrite negb_true_iff.
  split; intros H.
  - apply Qnot_le_lt. intros Hle. apply Qle_bool_iff in Hle. congruence.
  - destruct (Qle_bool b a) eqn:E; [|reflexivity].
    apply Qle_bool_iff in E. exfalso. exact (Qlt_not_le _ _ H E).
Qed.

Lemma fold_left_Qplus_acc (xs : list Q) (a : Q) :
  fold_left Qplus xs a = a + fold_left Qplus xs 0.
Proof.
  revert a. induction xs as [|x xs IH]; intros a; cbn.
  - destruct a as [an ad]. unfold Qplus. cbn [Qnum Qden].
    f_equal; [ring | now rewrite Pos.mul_1_r].
  - rewrite (IH (a + x)), (IH (0 + x)), Qplus_0_l_eq.
    symmetry. apply Qplus_assoc_eq.
Qed.

Lemma sum_cons (x : Q) (xs : list Q) : sum (x :: xs) = x + sum xs.
Proof.
  unfold sum. cbn. rewrite fold_left_Qplus_acc, Qplus_0_l_eq. reflexivity.
Qed.

Lemma sum_amounts_total (label : string) (df : list Transaction) :
  sum (amounts_of_type label df) = total_of_type label df.
Proof.
  unfold amounts_of_type.
  induction df as [|t rest IH]; [reflexivity|].
  cbn [filter total_of_type].
  destruct (String.eqb (t_type t) label); cbn [map]; [|exact IH].
  rewrite sum_cons, IH. reflexivity.
Qed.

Lemma calculate_metrics_eq_spec (df : list Transaction) :
  calculate_metrics df = metrics_spec df.
Proof.
  destruct df as [|t rest]; [reflexivity|].
  unfold calculate_metrics, metrics_spec, total_income, total_expense.
  rewrite !sum_amounts_total.
  set (inc := total_of_type income_label (t :: rest)).
  set (exp := total_of_type expense_label (t :: rest)).
  destruct (Qlt_le_dec 0 inc) as [Hpos|Hle].
  - apply Qlt_bool_iff in Hpos. rewrite Hpos. reflexivity.
  - destruct (Qlt_bool 0 inc) eqn:E; [|reflexivity].
    apply Qlt_bool_iff in E. exfalso. exact (Qlt_not_le _ _ E Hle).
Qed.


(** ** Sorting by insertion *)

Section SortBy.
Context {A : Type} (leb : A -> A -> bool).

Lemma insert_by_perm (x : A) (l : list A) :
  Permutation (x :: l) (insert_by leb x l).
Proof.
  induction l as [|y rest IH]; cbn; [reflexivity|].
  destruct (leb x y); [reflexivity|].
  rewrite perm_swap. now apply perm_skip.
Qed.

Lemma sort_by_perm (l : list A) : Permutation l (sort_by leb l).
Proof.
  induction l as [|x rest IH]; cbn; [constructor|].
  rewrite <- insert_by_perm. now apply perm_skip.
Qed.

Hypothesis leb_total : forall a b, leb a b = true \/ leb b a = true.

Let le (a b : A) : Prop := leb a b = true.

Lemma insert_by_sorted (x : A) (l : list A) :
  Sorted le l -> Sorted le (insert_by leb x l).
Proof.
  induction l as [|y rest IH]; intros Hs; cbn.
  - repeat constructor.
  - destruct (leb x y) eqn:E.
    + constructor; [exact Hs|]. constructor. exact E.
    + inversion Hs as [|? ? Hrest Hhd]; subst.
      constructor; [now apply IH|].
      assert (Hyx : le y x).
      { destruct (leb_total x y) as [H|H]; [congruence|exact H]. }
      destruct rest as [|z rest']; cbn.
      * constructor. exact Hyx.
      * destruct (leb x z); constructor; [exact Hyx|].
        now inversion Hhd.
Qed.

Lemma sort_by_sorted (l : list A) : Sorted le (sort_by leb l).
Proof.
  induction l as [|x rest IH]; cbn; [constructor|].
  now apply insert_by_sorted.
Qed.
End SortBy.

(** ** The transaction query *)

Lemma date_leb_total (a b : Date) : date_leb a b = true \/ date_leb b a = true.
Proof.
  unfold date_leb.
  destruct (Nat.ltb_spec (year a) (year b)), (Nat.ltb_spec (year b) (year a)),
    (Nat.eqb_spec (year a) (year b)), (Nat.eqb_spec (year b) (year a)),
    (Nat.ltb_spec (month a) (month b)), (Nat.ltb_spec (month b) (month a)),
    (Nat.eqb_spec (month a) (month b)), (Nat.eqb_spec (month b) (month a)),
    (Nat.leb_spec (day a) (day b)), (Nat.leb_spec (day b) (day a));
    cbn; auto; lia.
Qed.

Lemma date_desc_total (a b : Transaction) :
  date_desc a b = true \/ date_desc b a = true.
Proof. unfold date_desc. apply date_leb_total. Qed.

Lemma order_by_date_desc_sorted (l : list Transaction) :
  date_descending (order_by_date_desc l).
Proof. exact (sort_by_sorted date_desc date_desc_total l). Qed.

Lemma order_by_date_desc_perm (l : list Transaction) :
  Permutation l (order_by_date_desc l).
Proof. apply sort_by_perm. Qed.

Lemma get_transactions_sorted (db : Db) (start_date end_date : option Date) :
  date_descending (get_transactions db start_date end_date).
Proof. apply order_by_date_desc_sorted. Qed.

(** C10. The date range restricts the query only when both bounds are
    given: with the start date, the end date or both left out, the query
    returns what the query without bounds returns, namely every row of the
    table, in date-descending order; with both bounds it returns the rows
    whose date lies between them. *)
Theorem get_transactions_range_needs_both_bounds
    (db : Db) (start_date end_date : option Date) :
  start_date = None \/ end_date = None ->
  get_transactions db start_date end_date = get_transactions db None None /\
  Permutation (transactions db) (get_transactions db start_date end_date) /\
  date_descending (get_transactions db start_date end_date) /\
  (forall s e,
      get_transactions db (Some s) (Some e) =
      order_by_date_desc
        (filter (fun t => between s e (t_date t)) (transactions db))).
Proof.
  intros Hnone. split; [|split; [|split]].
  - destruct Hnone as [-> | ->]; [reflexivity|].
    destruct start_date; reflexivity.
  - assert (E : get_transactions db start_date end_date
                = order_by_date_desc (transactions db)).
    { destruct Hnone as [-> | ->]; [reflexivity|].
      destruct start_date; reflexivity. }
    rewrite E. apply order_by_date_desc_perm.
  - apply get_transactions_sorted.
  - reflexivity.
Qed.

Lemma get_transactions_range_needs_both_bounds_witness :
  get_transactions sample_db (Some (mkDate 2024 3 1)) None
  = get_transactions sample_db None None /\
  map t_id (get_transactions sample_db (Some (mkDate 2024 3 1)) None)
  = [2; 1; 3; 4]%Z.
Proof.
  split.
  - apply (get_transactions_range_needs_both_bounds
             sample_db (Some (mkDate 2024 3 1)) None).
    right. reflexivity.
  - reflexivity.
Defined.

(** ** Interactive entry *)

Lemma app_one_neq {A : Type} (l : list A) (x : A) : l <> l ++ [x].
Proof.
  intros E. apply (f_equal (@List.length A)) in E.
  rewrite length_app in E. cbn in E. lia.
Qed.

(** C6. A transaction entered in the form is written to the ledger, and
    confirmed, exactly when its amount is above zero; otherwise, and so at
    amount zero, the entry is refused with the error message and the
    ledger is as before. *)
Theorem main_save_transaction_iff_positive
    (db : Db) (now : string) (trans_date : Date) (trans_type category : string)
    (project description : option string) (amount : Q) :
  let r := main_save_transaction db now trans_date trans_type category
             project description amount in
  (0 < amount <->
   transactions (fst r) =
   transactions db ++
     [mkTransaction (next_id (map t_id (transactions db)))
        trans_date trans_type category project description amount now]) /\
  (0 < amount <-> snd r = st_success) /\
  (~ 0 < amount -> fst r = db /\ snd r = st_error) /\
  (amount == 0 -> fst r = db /\ snd r = st_error).
Proof.
  cbv zeta. unfold main_save_transaction.
  destruct (Qlt_bool 0 amount) eqn:E; cbn [fst snd].
  - apply Qlt_bool_iff in E.
    assert (Hz : ~ amount == 0).
    { intros H0. rewrite H0 in E. exact (Qlt_irrefl _ E). }
    split; [|split; [|split]].
    + split; [reflexivity | intros _; exact E].
    + split; [reflexivity | intros _; exact E].
    + intros Hn. contradiction.
    + intros H0. contradiction.
  - assert (Hn : ~ 0 < amount).
    { intros H. apply Qlt_bool_iff in H. congruence. }
    split; [|split; [|split]].
    + split; [intros H; contradiction|].
      intros H. exfalso. exact (app_one_neq _ _ H).
    + split; [intros H; contradiction | discriminate].
    + intros _. split; reflexivity.
    + intros _. split; reflexivity.
Qed.

Lemma existsb_eqb_In (name : string) (names : list string) :
  existsb (String.eqb name) names = true <-> In name names.
Proof.
  rewrite existsb_exists. split.
  - intros [x [Hin E]]. apply String.eqb_eq in E. now subst.
  - intros Hin. exists name. split; [exact Hin | apply String.eqb_refl].
Qed.

(** C7. Creating a project under the name of a project already in the
    table, whatever its status, is refused and writes nothing; under a
    name not in the table it adds the project, and from the form it does
    so when the name is not empty. *)
Theorem add_project_rejects_duplicate_name
    (db : Db) (now : string) (name : string) (client : option string)
    (budget : option Q) :
  (In name (map p_name (projects db)) ->
   add_project db now name client budget = (db, false) /\
   main_save_project db now name client budget = (db, st_error)) /\
  (~ In name (map p_name (projects db)) ->
   let db' :=
     mkDb (transactions db)
          (projects db ++
             [mkProject (next_id (map p_id (projects db)))
                name client budget "active" now]) in
   add_project db now name client budget = (db', true) /\
   (name <> "" ->
    main_save_project db now name client budget = (db', st_success))).
Proof.
  split.
  - intros Hin. apply existsb_eqb_In in Hin.
    unfold main_save_project, add_project. rewrite Hin.
    split; [reflexivity|]. destruct (String.eqb name ""); reflexivity.
  - intros Hnot. cbv zeta.
    assert (E : existsb (String.eqb name) (map p_name (projects db)) = false).
    { destruct (existsb _ _) eqn:E; [|reflexivity].
      apply existsb_eqb_In in E. contradiction. }
    unfold main_save_project, add_project. rewrite E.
    split; [reflexivity|]. intros Hne.
    apply String.eqb_neq in Hne. rewrite Hne. reflexivity.
Qed.

(** ** Export *)

Lemma get_projects_active (db : Db) (p : Project) :
  In p (get_projects db) <-> In p (projects db) /\ p_status p = "active".
Proof.
  unfold get_projects. rewrite filter_In, String.eqb_eq. reflexivity.
Qed.

(** C9, the claim as stated fails: with a transaction in the window and no
    active project the workbook has the transactions section alone. *)
Lemma main_export_single_section :
  get_transactions archived_only_db None None <> [] /\
  ~ export_has_two_sections archived_only_db
      (get_transactions archived_only_db None None) /\
  main_export archived_only_db (get_transactions archived_only_db None None)
  = Some [sheet_transactions "거래내역"
            (get_transactions archived_only_db None None)].
Proof.
  split; [discriminate|]. split; [|reflexivity].
  intros [name1 [name2 H]]. vm_compute in H. discriminate H.
Qed.

(** C9, amended. With at least one transaction in the filtered window the
    export produces a workbook whose first section holds the filtered
    transactions, date-descending with all their fields, followed by the
    section of the active projects when there is at least one active
    project; with no active project the workbook has the one section.  No
    workbook is produced when the window is empty. *)
Theorem main_export_sections
    (db : Db) (start_date end_date : option Date) :
  let df := get_transactions db start_date end_date in
  (df = [] <-> main_export db df = None) /\
  (df <> [] -> get_projects db <> [] ->
   main_export db df =
   Some [sheet_transactions "거래내역" df;
         sheet_projects "프로젝트" (get_projects db)]) /\
  (df <> [] -> get_projects db = [] ->
   main_export db df = Some [sheet_transactions "거래내역" df]) /\
  date_descending df /\
  (forall p, In p (get_projects db) <->
             In p (projects db) /\ p_status p = "active").
Proof.
  cbv zeta.
  set (df := get_transactions db start_date end_date).
  assert (Hs : date_descending df) by apply get_transactions_sorted.
  clearbody df.
  split; [|split; [|split; [|split]]].
  - destruct df; cbn; split; congruence.
  - intros Hdf Hps. destruct df; [congruence|]. cbn.
    destruct (get_projects db); [congruence | reflexivity].
  - intros Hdf Hps. destruct df; [congruence|]. cbn.
    rewrite Hps. reflexivity.
  - exact Hs.
  - apply get_projects_active.
Qed.

(** ** Import *)

Lemma bound_missing {A : Type} (cols : list Column) (c : Column)
    (cell : option A) :
  has_column cols c = false -> bound cols c cell = None.
Proof. intros H. unfold bound. now rewrite H. Qed.

Lemma insert_row_missing_required
    (now : string) (cols : list Column) (c : Column)
    (table : list Transaction) (r : ImportRow) :
  required c = true -> has_column cols c = false ->
  insert_row now cols table r = None.
Proof.
  intros Hreq Hmiss. unfold insert_row.
  destruct c; try discriminate Hreq.
  - rewrite (bound_missing cols col_date (i_date r) Hmiss). reflexivity.
  - rewrite (bound_missing cols col_type (i_type r) Hmiss).
    destruct (bound cols col_date (i_date r)); reflexivity.
  - rewrite (bound_missing cols col_category (i_category r) Hmiss).
    destruct (bound cols col_date (i_date r)), (bound cols col_type (i_type r)); reflexivity.
  - rewrite (bound_missing cols col_amount (i_amount r) Hmiss).
    destruct (bound cols col_date (i_date r)), (bound cols col_type (i_type r)),
      (bound cols col_category (i_category r)); reflexivity.
Qed.

(** C4, the claim as stated fails: a sheet without the [amount] column and
    without rows is taken without any error. *)
Lemma main_import_missing_column_no_error :
  required col_amount = true /\
  has_column (columns headers_without_amount) col_amount = false /\
  snd (main_import sample_db "2024-06-01 10:00:00" headers_without_amount)
  = imported 0 /\
  snd (main_import sample_db "2024-06-01 10:00:00" headers_without_amount)
  <> import_error.
Proof. repeat split. discriminate. Qed.

(** C4, amended. An import batch that lacks one of the columns [date],
    [type], [category], [amount] leaves the ledger as it was, contents and
    count; when the batch has at least one row the import ends in the
    error message, and when it has no row it reports zero rows imported. *)
Theorem main_import_missing_required_column
    (db : Db) (now : string) (b : ImportFrame) (c : Column) :
  required c = true -> has_column (columns b) c = false ->
  fst (main_import db now b) = db /\
  (rows b <> [] -> snd (main_import db now b) = import_error) /\
  (rows b = [] -> snd (main_import db now b) = imported 0).
Proof.
  intros Hreq Hmiss. unfold main_import.
  destruct (rows b) as [|r rest] eqn:Hrows.
  - cbn. destruct db. repeat split; congruence.
  - cbn [insert_rows].
    rewrite (insert_row_missing_required now _ c _ r Hreq Hmiss).
    cbn. repeat split; congruence.
Qed.

Lemma main_import_missing_required_column_witness :
  fst (main_import sample_db "2024-06-01 10:00:00"
         (mkImportFrame [col_date; col_type; col_category] (rows sample_batch)))
  = sample_db /\
  snd (main_import sample_db "2024-06-01 10:00:00"
         (mkImportFrame [col_date; col_type; col_category] (rows sample_batch)))
  = import_error.
Proof.
  destruct (main_import_missing_required_column sample_db "2024-06-01 10:00:00"
              (mkImportFrame [col_date; col_type; col_category]
                 (rows sample_batch)) col_amount)
    as [Hdb [Herr _]]; [reflexivity | reflexivity |].
  split; [exact Hdb | apply Herr; discriminate].
Defined.

Lemma well_formed_columns (cols : list Column) (c : Column) :
  forallb (has_column cols) all_columns = true -> has_column cols c = true.
Proof.
  intros H. rewrite forallb_forall in H. apply H.
  destruct c; cbn; auto 7.
Qed.

Lemma insert_row_filled
    (now : string) (cols : list Column) (table : list Transaction)
    (r : ImportRow) :
  forallb (has_column cols) all_columns = true -> row_filled r = true ->
  exists t, insert_row now cols table r = Some (table ++ [t]) /\
            row_matches r t.
Proof.
  intros Hcols Hrow. unfold insert_row, bound.
  rewrite !(well_formed_columns cols _ Hcols).
  unfold row_filled in Hrow. rewrite !andb_true_iff in Hrow.
  destruct Hrow as [[[Hd Ht] Hc] Ha].
  destruct (i_date r) as [d|] eqn:Ed; [|discriminate Hd].
  destruct (i_type r) as [ty|] eqn:Et; [|discriminate Ht].
  destruct (i_category r) as [c|] eqn:Ec; [|discriminate Hc].
  destruct (i_amount r) as [a|] eqn:Ea; [|discriminate Ha].
  eexists. split; [reflexivity|].
  unfold row_matches. cbn. rewrite Ed, Et, Ec, Ea. repeat split.
Qed.

Lemma insert_rows_filled
    (now : string) (cols : list Column) (rs : list ImportRow) :
  forallb (has_column cols) all_columns = true ->
  forallb row_filled rs = true ->
  forall table, exists new,
    insert_rows now cols table rs = Some (table ++ new) /\
    Forall2 row_matches rs new.
Proof.
  intros Hcols. induction rs as [|r rest IH]; intros Hrows table.
  - exists []. rewrite app_nil_r. split; [reflexivity | constructor].
  - cbn [forallb] in Hrows. apply andb_true_iff in Hrows.
    destruct Hrows as [Hr Hrest].
    destruct (insert_row_filled now cols table r Hcols Hr) as [t [Et Hm]].
    destruct (IH Hrest (table ++ [t])) as [new [En Hnew]].
    exists (t :: new). cbn [insert_rows]. rewrite Et, En.
    rewrite <- app_assoc. split; [reflexivity | now constructor].
Qed.

Lemma main_import_well_formed (db : Db) (now : string) (b : ImportFrame) :
  well_formed b = true -> rows_filled b = true ->
  exists new,
    main_import db now b =
    (mkDb (transactions db ++ new) (projects db),
     imported (List.length (rows b))) /\
    Forall2 row_matches (rows b) new.
Proof.
  intros Hcols Hrows.
  destruct (insert_rows_filled now (columns b) (rows b) Hcols Hrows
              (transactions db)) as [new [E Hnew]].
  exists new. unfold main_import. rewrite E. split; [reflexivity | exact Hnew].
Qed.

Lemma insert_row_unfilled
    (now : string) (cols : list Column) (table : list Transaction)
    (r : ImportRow) :
  row_filled r = false -> insert_row now cols table r = None.
Proof.
  unfold row_filled, insert_row, bound. intros H.
  destruct (i_date r), (i_type r), (i_category r), (i_amount r);
    try discriminate H;
    destruct (has_column cols col_date), (has_column cols col_type),
      (has_column cols col_category), (has_column cols col_amount);
    reflexivity.
Qed.

Lemma insert_rows_unfilled
    (now : string) (cols : list Column) (rs : list ImportRow) :
  forallb row_filled rs = false ->
  forall table, insert_rows now cols table rs = None.
Proof.
  induction rs as [|r rest IH]; intros H table; cbn in H |- *;
    [discriminate|].
  destruct (row_filled r) eqn:Er; cbn in H.
  - destruct (insert_row now cols table r); [now apply IH | reflexivity].
  - now rewrite (insert_row_unfilled now cols table r Er).
Qed.

(** C5, the claim as stated fails: a batch with the six columns and an
    empty [date] cell in its second row is not appended, not even its
    first row. *)
Lemma main_import_empty_cell_rejects_batch :
  well_formed batch_with_empty_cell = true /\
  List.length (rows batch_with_empty_cell) = 2%nat /\
  main_import sample_db "2024-06-01 10:00:00" batch_with_empty_cell
  = (sample_db, import_error).
Proof. repeat split. Qed.

(** C5, amended. A well-formed batch of n rows in which every row has a
    value in [date], [type], [category] and [amount] is appended whole:
    the import reports n rows, the ledger is the old one followed by n
    rows holding the cells of the batch, whatever their amounts and
    whatever the ledger already holds; importing the same batch again adds
    n rows once more.  A well-formed batch with an empty cell in one of
    these four columns is refused whole and leaves the ledger as it was. *)
Theorem main_import_appends_every_row
    (db : Db) (now now' : string) (b : ImportFrame) :
  well_formed b = true ->
  (rows_filled b = true ->
   let n := List.length (rows b) in
   let r1 := main_import db now b in
   let r2 := main_import (fst r1) now' b in
   snd r1 = imported n /\
   (exists new, transactions (fst r1) = transactions db ++ new /\
                Forall2 row_matches (rows b) new) /\
   projects (fst r1) = projects db /\
   List.length (transactions (fst r1))
   = (List.length (transactions db) + n)%nat /\
   snd r2 = imported n /\
   List.length (transactions (fst r2))
   = (List.length (transactions (fst r1)) + n)%nat) /\
  (rows_filled b = false -> main_import db now b = (db, import_error)).
Proof.
  intros Hwf. split.
  - intros Hrows. cbv zeta.
    destruct (main_import_well_formed db now b Hwf Hrows) as [new [E1 H1]].
    rewrite E1. cbn [fst snd transactions projects].
    destruct (main_import_well_formed
                (mkDb (transactions db ++ new) (projects db)) now' b Hwf Hrows)
      as [new' [E2 H2]].
    rewrite E2. cbn [fst snd transactions projects].
    pose proof (Forall2_length H1) as L1.
    pose proof (Forall2_length H2) as L2.
    repeat split.
    + exists new. split; [reflexivity | exact H1].
    + rewrite length_app. lia.
    + rewrite !length_app. lia.
  - intros Hrows. unfold main_import.
    now rewrite (insert_rows_unfilled now (columns b) (rows b) Hrows).
Qed.

Lemma main_import_appends_every_row_witness :
  snd (main_import sample_db "2024-06-01 10:00:00" sample_batch) = imported 2 /\
  map t_amount
    (transactions
       (fst (main_import
               (fst (main_import sample_db "2024-06-01 10:00:00" sample_batch))
               "2024-06-01 10:05:00" sample_batch)))
  = [100; 50; 30; 50; 0; -5; 0; -5].
Proof.
  split.
  - apply (proj1 (main_import_appends_every_row sample_db "2024-06-01 10:00:00"
                    "2024-06-01 10:05:00" sample_batch eq_refl)).
    reflexivity.
  - reflexivity.
Defined.

(** ** Profitability per project *)

Lemma Sorted_weaken {A : Type} (R R' : A -> A -> Prop) (l : list A) :
  (forall a b, R a b -> R' a b) -> Sorted R l -> Sorted R' l.
Proof.
  intros HR. induction 1 as [|x l Hs IH Hhd]; constructor; [exact IH|].
  destruct Hhd; constructor. now apply HR.
Qed.

Lemma Qle_bool_total (a b : Q) : Qle_bool a b = true \/ Qle_bool b a = true.
Proof.
  rewrite !Qle_bool_iff.
  destruct (Qlt_le_dec a b) as [H|H]; [left; now apply Qlt_le_weak | now right].
Qed.

Lemma sort_by_net_sorted (l : list (string * Q)) :
  Sorted net_desc (sort_by (fun a b => Qle_bool (snd b) (snd a)) l).
Proof.
  apply Sorted_weaken
    with (R := fun a b => Qle_bool (snd b) (snd a) = true).
  - intros a b H. now apply Qle_bool_iff.
  - apply sort_by_sorted. intros a b. apply Qle_bool_total.
Qed.

Lemma sort_values_stable_sorts : sorts_descending sort_values_stable.
Proof.
  intros l. split; [apply sort_by_perm | apply sort_by_net_sorted].
Qed.

Lemma group_keys_In (k : string) (ks : list string) :
  In k (group_keys ks) <-> In k ks.
Proof.
  unfold group_keys. rewrite <- (nodup_In string_dec ks k). split.
  - apply Permutation_in. symmetry. apply sort_by_perm.
  - apply Permutation_in. apply sort_by_perm.
Qed.

Lemma group_keys_NoDup (ks : list string) : NoDup (group_keys ks).
Proof.
  unfold group_keys.
  apply (Permutation_NoDup (sort_by_perm String.leb (nodup string_dec ks))).
  apply NoDup_nodup.
Qed.

Lemma project_values_In (k : string) (df : list Transaction) :
  In k (project_values df) <-> exists t, In t df /\ t_project t = Some k.
Proof.
  induction df as [|t rest IH]; cbn.
  - split; [contradiction | intros [t [[] _]]].
  - destruct (t_project t) as [p|] eqn:E; cbn; rewrite IH; split.
    + intros [-> | [t' [Hin Hp]]]; [exists t; auto | exists t'; auto].
    + intros [t' [[<- | Hin] Hp]]; [left; congruence | right; exists t'; auto].
    + intros [t' [Hin Hp]]. exists t'; auto.
    + intros [t' [[<- | Hin] Hp]]; [congruence | exists t'; auto].
Qed.

Lemma project_values_filter_notna (df : list Transaction) :
  project_values (filter (fun t => notna (t_project t)) df) = project_values df.
Proof.
  induction df as [|t rest IH]; [reflexivity|].
  cbn [filter project_values].
  destruct (t_project t) as [p|] eqn:E; cbn [notna project_values].
  - rewrite E, IH. reflexivity.
  - exact IH.
Qed.

Lemma filter_has_project_notna (k : string) (df : list Transaction) :
  filter (has_project k) (filter (fun t => notna (t_project t)) df)
  = filter (has_project k) df.
Proof.
  induction df as [|t rest IH]; [reflexivity|].
  cbn [filter]. unfold has_project at 2.
  destruct (t_project t) as [p|] eqn:E; cbn [notna].
  - cbn [filter]. unfold has_project at 1. rewrite E.
    destruct (String.eqb p k); now rewrite IH.
  - exact IH.
Qed.

Lemma sum_amounts_project_total (label k : string) (df : list Transaction) :
  sum (amounts_of_type label (filter (has_project k) df))
  = project_total label k df.
Proof.
  unfold amounts_of_type.
  induction df as [|t rest IH]; [reflexivity|].
  cbn [filter project_total].
  destruct (has_project k t); cbn [andb filter]; [|exact IH].
  destruct (String.eqb (t_type t) label); cbn [map]; [|exact IH].
  rewrite sum_cons, IH. reflexivity.
Qed.

Lemma net_amount_group (k : string) (df : list Transaction) :
  net_amount (filter (has_project k) (filter (fun t => notna (t_project t)) df))
  = net_contribution k df.
Proof.
  rewrite filter_has_project_notna. unfold net_amount, net_contribution.
  now rewrite !sum_amounts_project_total.
Qed.

Lemma project_data_keys (df : list Transaction) :
  map fst (project_data df) = group_keys (project_values df).
Proof.
  unfold project_data. rewrite map_map. cbn [fst].
  rewrite map_id, project_values_filter_notna. reflexivity.
Qed.

Lemma project_data_net (df : list Transaction) (k : string) (v : Q) :
  In (k, v) (project_data df) -> v = net_contribution k df.
Proof.
  unfold project_data. rewrite in_map_iff.
  intros [k' [E _]]. inversion E; subst. apply net_amount_group.
Qed.

(** ** The monthly report *)















(** ** The metrics in binary64 *)





(** ** The monthly report from the stored dates *)








Example main_monthly_report_sample :
  main_monthly_report_stored stored_sample
  = report_table
      [((2024%nat, 2%nat),
        [(income_label, 50); (expense_label, 30); (net_label, 20)]);
       ((2024%nat, 3%nat),
        [(income_label, 100); (expense_label, 50); (net_label, 50)])].
Proof. reflexivity. Qed.

(** ** Worked cases *)

Example calculate_metrics_sample :
  calculate_metrics sample_ledger = (150, 80, 70, 7000 # 150).
Proof. reflexivity. Qed.

Example calculate_metrics_no_income :
  calculate_metrics expense_only_ledger = (0, 50, -50, 0).
Proof. reflexivity. Qed.

Example project_profitability_two_projects :
  project_profitability sort_values_stable two_project_ledger
  = [("A", 100); ("B", -50)].
Proof. reflexivity. Qed.

Example project_profitability_skips_unassigned :
  project_profitability sort_values_stable expense_only_ledger = [].
Proof. reflexivity. Qed.

Example monthly_pivot_same_bucket :
  monthly_pivot two_project_ledger
  = [((2024%nat, 3%nat),
      [(income_label, 100); (expense_label, 50); (net_label, 50)])].
Proof. reflexivity. Qed.

Example monthly_pivot_sample :
  monthly_pivot sample_ledger
  = [((2024%nat, 2%nat),
      [(income_label, 50); (expense_label, 30); (net_label, 20)]);
     ((2024%nat, 3%nat),
      [(income_label, 100); (expense_label, 50); (net_label, 50)])].
Proof. reflexivity. Qed.

Example get_transactions_window :
  map t_id (get_transactions sample_db
              (Some (mkDate 2024 3 1)) (Some (mkDate 2024 3 31)))
  = [2; 1]%Z.
Proof. reflexivity. Qed.

Example main_save_transaction_zero :
  main_save_transaction sample_db "2024-06-01 10:00:00" (mkDate 2024 6 1)
    income_label "자문료" None None 0
  = (sample_db, st_error).
Proof. reflexivity. Qed.

Example add_project_archived_name :
  add_project sample_db "2024-06-01 10:00:00" "B" None None = (sample_db, false).
Proof. reflexivity. Qed.

Example add_project_other_case :
  snd (add_project sample_db "2024-06-01 10:00:00" "b" None None) = true.
Proof. reflexivity. Qed.

Example main_export_sample :
  main_export sample_db (get_transactions sample_db None None)
  = Some [sheet_transactions "거래내역" (get_transactions sample_db None None);
          sheet_projects "프로젝트" (get_projects sample_db)].
Proof. reflexivity. Qed.

(** * Further properties of the code *)

(** ** The date order and the window of the query *)

Lemma date_leb_le (a b : Date) : date_leb a b = true <-> date_le a b.
Proof.
  unfold date_leb, date_le.
  rewrite orb_true_iff, andb_true_iff, orb_true_iff, andb_true_iff.
  rewrite !Nat.ltb_lt, !Nat.eqb_eq, Nat.leb_le. reflexivity.
Qed.

Lemma date_leb_refl (a : Date) : date_leb a a = true.
Proof. apply date_leb_le. unfold date_le. lia. Qed.

Lemma date_leb_trans (a b c : Date) :
  date_leb a b = true -> date_leb b c = true -> date_leb a c = true.
Proof. rewrite !date_leb_le. unfold date_le. lia. Qed.

Lemma order_by_date_desc_In (t : Transaction) (l : list Transaction) :
  In t (order_by_date_desc l) <-> In t l.
Proof.
  split; apply Permutation_in;
    [symmetry|]; apply order_by_date_desc_perm.
Qed.

Lemma filter_none {A : Type} (f : A -> bool) (l : list A) :
  (forall x, In x l -> f x = false) -> filter f l = [].
Proof.
  induction l as [|x rest IH]; intros H; cbn; [reflexivity|].
  rewrite (H x (or_introl eq_refl)). apply IH.
  intros y Hy. apply H. now right.
Qed.

(** X2. A window whose end date lies before its start date returns no
    row, whatever the table holds. *)
Theorem get_transactions_inverted_window (db : Db) (s e : Date) :
  ~ date_le s e -> get_transactions db (Some s) (Some e) = [].
Proof.
  intros Hinv. unfold get_transactions.
  rewrite filter_none; [reflexivity|].
  intros t _. unfold between.
  destruct (date_leb s (t_date t)) eqn:E1; [|reflexivity].
  destruct (date_leb (t_date t) e) eqn:E2; [|reflexivity].
  exfalso. apply Hinv. apply date_leb_le.
  exact (date_leb_trans _ _ _ E1 E2).
Qed.

Lemma get_transactions_inverted_window_witness :
  get_transactions sample_db (Some (mkDate 2024 3 31)) (Some (mkDate 2024 3 1))
  = [].
Proof.
  apply (get_transactions_inverted_window sample_db
           (mkDate 2024 3 31) (mkDate 2024 3 1)).
  unfold date_le. cbn. lia.
Defined.

Lemma get_transactions_In (db : Db) (start_date end_date : option Date)
    (t : Transaction) :
  In t (get_transactions db start_date end_date) <->
  In t (transactions db) /\
  match start_date, end_date with
  | Some s, Some e => between s e (t_date t) = true
  | _, _ => True
  end.
Proof.
  unfold get_transactions. rewrite order_by_date_desc_In.
  destruct start_date as [s|], end_date as [e|]; try tauto.
  apply filter_In.
Qed.

(** X3. A transaction written by [add_transaction] is returned by the
    query without bounds, is returned by a bounded query exactly when its
    date lies in the window, and hides none of the rows returned before. *)
Theorem add_transaction_then_query
    (db : Db) (now : string) (trans_date : Date) (trans_type category : string)
    (project description : option string) (amount : Q) :
  let db' := add_transaction db now trans_date trans_type category
               project description amount in
  let t' := mkTransaction (next_id (map t_id (transactions db)))
              trans_date trans_type category project description amount now in
  In t' (get_transactions db' None None) /\
  (forall s e, In t' (get_transactions db' (Some s) (Some e)) <->
               date_le s trans_date /\ date_le trans_date e) /\
  (forall start_date end_date t,
      In t (get_transactions db start_date end_date) ->
      In t (get_transactions db' start_date end_date)) /\
  List.length (get_transactions db' None None)
  = S (List.length (get_transactions db None None)).
Proof.
  cbv zeta. split; [|split; [|split]].
  - apply get_transactions_In. split; [|exact I].
    cbn. apply in_or_app. right. now left.
  - intros s e. rewrite get_transactions_In. cbn [t_date].
    unfold between. rewrite andb_true_iff, !date_leb_le. split.
    + tauto.
    + intros H. split; [|exact H]. cbn. apply in_or_app. right. now left.
  - intros start_date end_date t. rewrite !get_transactions_In.
    intros [Hin Hw]. split; [|exact Hw]. cbn. apply in_or_app. now left.
  - unfold get_transactions.
    rewrite <- (Permutation_length (order_by_date_desc_perm _)).
    rewrite <- (Permutation_length (order_by_date_desc_perm _)).
    cbn. rewrite length_app. cbn. lia.
Qed.

(** ** More on the metrics *)

Lemma total_of_type_app (label : string) (l1 l2 : list Transaction) :
  total_of_type label (l1 ++ l2)
  = total_of_type label l1 + total_of_type label l2.
Proof.
  induction l1 as [|t rest IH]; cbn.
  - symmetry. apply Qplus_0_l_eq.
  - destruct (String.eqb (t_type t) label); [|exact IH].
    rewrite IH. apply Qplus_assoc_eq.
Qed.

Lemma total_of_type_other (label : string) (t : Transaction)
    (l1 l2 : list Transaction) :
  t_type t <> label ->
  total_of_type label (l1 ++ t :: l2) = total_of_type label (l1 ++ l2).
Proof.
  intros Hne. rewrite !total_of_type_app. cbn.
  apply String.eqb_neq in Hne. now rewrite Hne.
Qed.

(** X5. A record whose [type] is neither of the two labels changes none of
    the four figures, wherever it stands in the sequence. *)
Theorem calculate_metrics_ignores_other_types
    (t : Transaction) (l1 l2 : list Transaction) :
  t_type t <> income_label -> t_type t <> expense_label ->
  calculate_metrics (l1 ++ t :: l2) = calculate_metrics (l1 ++ l2).
Proof.
  intros Hi He. rewrite !calculate_metrics_eq_spec.
  unfold metrics_spec, total_income, total_expense.
  rewrite (total_of_type_other income_label t l1 l2 Hi).
  rewrite (total_of_type_other expense_label t l1 l2 He).
  reflexivity.
Qed.

Lemma calculate_metrics_ignores_other_types_witness :
  calculate_metrics
    (sample_transaction 9 (mkDate 2024 3 9) "이체" (Some "A") 999 :: sample_ledger)
  = calculate_metrics sample_ledger.
Proof.
  apply (calculate_metrics_ignores_other_types
           (sample_transaction 9 (mkDate 2024 3 9) "이체" (Some "A") 999)
           [] sample_ledger); discriminate.
Defined.




(** ** Invariants of the store *)

Lemma next_id_above (ids : list Z) (i : Z) : In i ids -> (i < next_id ids)%Z.
Proof.
  unfold next_id. induction ids as [|j rest IH]; cbn [In fold_right];
    [contradiction|].
  intros [-> | Hin]; [lia|]. specialize (IH Hin). lia.
Qed.

Lemma next_id_fresh (ids : list Z) : ~ In (next_id ids) ids.
Proof. intros Hin. apply next_id_above in Hin. lia. Qed.

Lemma NoDup_snoc {A : Type} (l : list A) (x : A) :
  NoDup l -> ~ In x l -> NoDup (l ++ [x]).
Proof.
  intros Hl Hx. apply (Permutation_NoDup (Permutation_cons_append l x)).
  now constructor.
Qed.

Lemma insert_row_inv (now : string) (cols : list Column)
    (table table' : list Transaction) (r : ImportRow) :
  insert_row now cols table r = Some table' ->
  exists t, table' = table ++ [t] /\ t_id t = next_id (map t_id table).
Proof.
  unfold insert_row.
  destruct (bound cols col_date (i_date r)); [|discriminate].
  destruct (bound cols col_type (i_type r)); [|discriminate].
  destruct (bound cols col_category (i_category r)); [|discriminate].
  destruct (bound cols col_amount (i_amount r)); [|discriminate].
  intros E. inversion E. eexists. split; reflexivity.
Qed.

Lemma insert_rows_ids (now : string) (cols : list Column) (rs : list ImportRow) :
  forall table table',
    NoDup (map t_id table) ->
    insert_rows now cols table rs = Some table' ->
    NoDup (map t_id table').
Proof.
  induction rs as [|r rest IH]; intros table table' Hnd E; cbn in E.
  - inversion E. now subst.
  - destruct (insert_row now cols table r) as [table1|] eqn:E1; [|discriminate].
    apply insert_row_inv in E1. destruct E1 as [t [-> Hid]].
    apply (IH (table ++ [t]) table'); [|exact E].
    rewrite map_app. cbn. apply NoDup_snoc; [exact Hnd|].
    rewrite Hid. apply next_id_fresh.
Qed.

(** X8. Row ids stay distinct: when the ids of the transactions are
    pairwise distinct, they still are after [add_transaction] and after
    the import of a sheet whose columns are among the six of the stated
    format (it has no [id] column, so the table gives the ids); the id
    given by [add_transaction] is above every id in the table. *)
Theorem transaction_ids_stay_distinct (db : Db) :
  NoDup (map t_id (transactions db)) ->
  (forall now trans_date trans_type category project description amount,
      NoDup (map t_id
               (transactions
                  (add_transaction db now trans_date trans_type category
                     project description amount)))) /\
  (forall i, In i (map t_id (transactions db)) ->
             (i < next_id (map t_id (transactions db)))%Z) /\
  (forall now import_df,
      NoDup (map t_id (transactions (fst (main_import db now import_df))))).
Proof.
  intros Hnd. split; [|split].
  - intros. cbn. rewrite map_app. cbn.
    apply NoDup_snoc; [exact Hnd | apply next_id_fresh].
  - intros i. apply next_id_above.
  - intros now import_df. unfold main_import.
    destruct (insert_rows now (columns import_df) (transactions db)
                (rows import_df)) as [table'|] eqn:E; cbn; [|exact Hnd].
    exact (insert_rows_ids _ _ _ _ _ Hnd E).
Qed.

Lemma transaction_ids_stay_distinct_witness :
  NoDup (map t_id
           (transactions
              (fst (main_import sample_db "2024-06-01 10:00:00" sample_batch)))).
Proof.
  apply (transaction_ids_stay_distinct sample_db).
  cbn. repeat constructor; cbn; intuition discriminate.
Defined.

(** X9. [add_project] keeps the project names pairwise distinct, and the
    project ids as well, whether it adds the project or refuses it. *)
Theorem add_project_keeps_names_distinct
    (db : Db) (now : string) (name : string) (client : option string)
    (budget : option Q) :
  NoDup (map p_name (projects db)) -> NoDup (map p_id (projects db)) ->
  let db' := fst (add_project db now name client budget) in
  NoDup (map p_name (projects db')) /\ NoDup (map p_id (projects db')) /\
  transactions db' = transactions db.
Proof.
  intros Hnames Hids. cbv zeta. unfold add_project.
  destruct (existsb (String.eqb name) (map p_name (projects db))) eqn:E;
    cbn [fst projects transactions].
  - auto.
  - rewrite !map_app. cbn. repeat split.
    + apply NoDup_snoc; [exact Hnames|].
      intros Hin. apply existsb_eqb_In in Hin. congruence.
    + apply NoDup_snoc; [exact Hids | apply next_id_fresh].
Qed.

Lemma add_project_keeps_names_distinct_witness :
  NoDup (map p_name
           (projects (fst (add_project sample_db "2024-06-01 10:00:00"
                             "C" None (Some 500))))).
Proof.
  apply (add_project_keeps_names_distinct sample_db "2024-06-01 10:00:00"
           "C" None (Some 500)).
  - cbn. repeat constructor; cbn; intuition discriminate.
  - cbn. repeat constructor; cbn; intuition discriminate.
Defined.

(** X10. A project that [add_project] adds is listed by [get_projects] at
    once, after the projects listed before.  A name held by a project that
    is not active is refused and stays out of the list: it can neither be
    created again nor be picked. *)
Theorem add_project_then_listed
    (db : Db) (now : string) (name : string) (client : option string)
    (budget : option Q) :
  let db' := fst (add_project db now name client budget) in
  (~ In name (map p_name (projects db)) ->
   get_projects db' =
   get_projects db ++
     [mkProject (next_id (map p_id (projects db))) name client budget
        "active" now]) /\
  (In name (map p_name (projects db)) ->
   ~ In name (map p_name (get_projects db)) ->
   snd (add_project db now name client budget) = false /\
   ~ In name (map p_name (get_projects db'))).
Proof.
  cbv zeta. unfold add_project. split.
  - intros Hnot.
    destruct (existsb (String.eqb name) (map p_name (projects db))) eqn:E.
    + apply existsb_eqb_In in E. contradiction.
    + cbn [fst]. unfold get_projects. cbn [projects].
      rewrite filter_app. reflexivity.
  - intros Hin Hnl. apply existsb_eqb_In in Hin. rewrite Hin. cbn [fst snd].
    split; [reflexivity | exact Hnl].
Qed.

(** ** Import, row by row *)

Lemma insert_row_insertable (now : string) (cols : list Column)
    (table : list Transaction) (r : ImportRow) :
  (insertable cols r = true ->
   exists t, insert_row now cols table r = Some (table ++ [t])) /\
  (insertable cols r = false -> insert_row now cols table r = None).
Proof.
  unfold insertable, insert_row.
  destruct (bound cols col_date (i_date r)),
    (bound cols col_type (i_type r)),
    (bound cols col_category (i_category r)),
    (bound cols col_amount (i_amount r)); cbn;
    split; try discriminate; try reflexivity.
  intros _. eexists. reflexivity.
Qed.

Lemma insert_rows_all (now : string) (cols : list Column) (rs : list ImportRow) :
  forallb (insertable cols) rs = true ->
  forall table, exists new,
    insert_rows now cols table rs = Some (table ++ new) /\
    List.length new = List.length rs.
Proof.
  induction rs as [|r rest IH]; intros H table; cbn in H |- *.
  - exists []. now rewrite app_nil_r.
  - apply andb_true_iff in H. destruct H as [Hr Hrest].
    destruct (proj1 (insert_row_insertable now cols table r) Hr) as [t Et].
    rewrite Et. destruct (IH Hrest (table ++ [t])) as [new [En Hl]].
    exists (t :: new). rewrite En, <- app_assoc. cbn. split; congruence.
Qed.

Lemma insert_rows_some_bad (now : string) (cols : list Column)
    (rs : list ImportRow) :
  forallb (insertable cols) rs = false ->
  forall table, insert_rows now cols table rs = None.
Proof.
  induction rs as [|r rest IH]; intros H table; cbn in H |- *.
  - discriminate.
  - destruct (insertable cols r) eqn:Er; cbn in H.
    + destruct (proj1 (insert_row_insertable now cols table r) Er) as [t Et].
      rewrite Et. now apply IH.
    + now rewrite (proj2 (insert_row_insertable now cols table r) Er).
Qed.

(** X11. The import of a sheet whose columns are among the six of the
    stated format is all or nothing.  When each row has a value in
    [date], [type], [category] and [amount], every row is appended after
    the rows the ledger had, and the projects are left alone; when a
    single row lacks one of them, wherever it stands in the sheet, no row
    is appended and the import ends in the error message. *)
Theorem main_import_all_or_nothing (db : Db) (now : string) (b : ImportFrame) :
  (forallb (insertable (columns b)) (rows b) = true ->
   snd (main_import db now b) = imported (List.length (rows b)) /\
   projects (fst (main_import db now b)) = projects db /\
   exists new,
     transactions (fst (main_import db now b)) = transactions db ++ new /\
     List.length new = List.length (rows b)) /\
  (forallb (insertable (columns b)) (rows b) = false ->
   main_import db now b = (db, import_error)).
Proof.
  unfold main_import. split; intros H.
  - destruct (insert_rows_all now (columns b) (rows b) H (transactions db))
      as [new [E Hl]].
    rewrite E. cbn. repeat split. exists new. split; [reflexivity | exact Hl].
  - now rewrite (insert_rows_some_bad now (columns b) (rows b) H).
Qed.

(** ** Lists *)

Lemma filter_all {A : Type} (f : A -> bool) (l : list A) :
  (forall x, In x l -> f x = true) -> filter f l = l.
Proof.
  induction l as [|x rest IH]; intros H; cbn; [reflexivity|].
  rewrite (H x (or_introl eq_refl)). f_equal. apply IH.
  intros y Hy. apply H. now right.
Qed.

(** ** The categories of the income statement *)

Lemma category_sums_keys (label c : string) (df : list Transaction) :
  In c (map fst (category_sums label df)) <->
  exists t, In t df /\ t_type t = label /\ t_category t = c.
Proof.
  unfold category_sums. rewrite map_map. cbn [fst]. rewrite map_id.
  rewrite group_keys_In, in_map_iff. split.
  - intros [t [Hc Hin]]. apply filter_In in Hin. destruct Hin as [Hin Ht].
    apply String.eqb_eq in Ht. exists t. auto.
  - intros [t [Hin [Ht Hc]]]. exists t. split; [exact Hc|].
    apply filter_In. split; [exact Hin|]. now apply String.eqb_eq.
Qed.

(** ** The project page *)

Lemma main_project_status_none (df : list Transaction) (proj : Project) :
  main_project_status df proj = None <->
  ~ exists t, In t df /\ t_project t = Some (p_name proj).
Proof.
  unfold main_project_status.
  destruct (filter (has_project (p_name proj)) df) as [|t rest] eqn:E.
  - split; [|reflexivity]. intros _ [t [Hin Hp]].
    assert (Hf : In t (filter (has_project (p_name proj)) df)).
    { apply filter_In. split; [exact Hin|]. unfold has_project.
      rewrite Hp. apply String.eqb_refl. }
    rewrite E in Hf. exact Hf.
  - split; [discriminate|]. intros Hno. exfalso. apply Hno.
    assert (Hf : In t (filter (has_project (p_name proj)) df))
      by (rewrite E; now left).
    apply filter_In in Hf. destruct Hf as [Hin Hp]. exists t.
    split; [exact Hin|]. unfold has_project in Hp.
    destruct (t_project t) as [p|]; [|discriminate].
    apply String.eqb_eq in Hp. now subst.
Qed.

Lemma main_project_status_some
    (df : list Transaction) (proj : Project) (i e p : Q) (g : Progress) :
  main_project_status df proj = Some (i, e, p, g) ->
  i = project_total income_label (p_name proj) df /\
  e = project_total expense_label (p_name proj) df /\
  p = net_contribution (p_name proj) df /\
  g = match p_budget proj with
      | Some budget =>
          if Qlt_bool 0 budget then st_progress (py_min (i / budget) 1)
          else no_bar
      | None => no_bar
      end.
Proof.
  unfold main_project_status.
  destruct (filter (has_project (p_name proj)) df) as [|t rest] eqn:E;
    [discriminate|].
  rewrite <- E. cbv zeta. rewrite !sum_amounts_project_total.
  intros H. inversion H; subst. unfold net_contribution. auto.
Qed.

(** X15. The project page and [project_profitability] agree: a project
    has figures on the page exactly when it has a row in the
    profitability frame, and the profit shown on the page is the
    contribution in that row. *)
Theorem main_project_status_matches_profitability
    (sort_values : list (string * Q) -> list (string * Q))
    (df : list Transaction) (proj : Project) :
  sorts_descending sort_values ->
  (main_project_status df proj = None <->
   ~ In (p_name proj) (map fst (project_profitability sort_values df))) /\
  (forall i e p g,
      main_project_status df proj = Some (i, e, p, g) ->
      p = i - e /\
      In (p_name proj, p) (project_profitability sort_values df)).
Proof.
  intros Hsort.
  assert (Hkeys : forall k,
             In k (map fst (project_profitability sort_values df)) <->
             exists t, In t df /\ t_project t = Some k).
  { intros k. unfold project_profitability. destruct df as [|t0 rest].
    - split; [contradiction | intros [t [[] _]]].
    - set (df := t0 :: rest).
      destruct (Hsort (project_data df)) as [Hperm _].
      rewrite <- (project_values_In k df),
        <- (group_keys_In k (project_values df)), <- project_data_keys.
      split; apply Permutation_in; [symmetry|];
        now apply Permutation_map. }
  split.
  - rewrite main_project_status_none, Hkeys. reflexivity.
  - intros i e p g E.
    assert (Hsome : exists t, In t df /\ t_project t = Some (p_name proj)).
    { destruct (filter (has_project (p_name proj)) df) as [|t rest] eqn:Ef.
      - unfold main_project_status in E. rewrite Ef in E. discriminate.
      - assert (Hf : In t (filter (has_project (p_name proj)) df))
          by (rewrite Ef; now left).
        apply filter_In in Hf. destruct Hf as [Hin Hp]. exists t.
        split; [exact Hin|]. unfold has_project in Hp.
        destruct (t_project t) as [q|]; [|discriminate].
        apply String.eqb_eq in Hp. now subst. }
    apply main_project_status_some in E. destruct E as [-> [-> [-> _]]].
    split; [reflexivity|].
    unfold project_profitability. destruct df as [|t0 rest].
    + destruct Hsome as [t [[] _]].
    + set (df := t0 :: rest) in *.
      destruct (Hsort (project_data df)) as [Hperm _].
      apply (Permutation_in _ Hperm).
      unfold project_data. apply in_map_iff. exists (p_name proj). split.
      * f_equal. apply net_amount_group.
      * rewrite project_values_filter_notna.
        apply group_keys_In, project_values_In. exact Hsome.
Qed.

Lemma main_project_status_matches_profitability_witness :
  main_project_status sample_ledger
    (mkProject 1 "A" (Some "Acme") (Some 1000) "active" "2024-01-01 09:00:00")
  = Some (100, 0, 100, bar (100 / 1000)) /\
  In ("A", 100) (project_profitability sort_values_stable sample_ledger).
Proof.
  split; [reflexivity|].
  apply (proj2 (main_project_status_matches_profitability sort_values_stable
                  sample_ledger
                  (mkProject 1 "A" (Some "Acme") (Some 1000) "active"
                     "2024-01-01 09:00:00")
                  sort_values_stable_sorts)
           100 0 100 (bar (100 / 1000))).
  reflexivity.
Defined.








(** ** The transaction list and its selections *)

Lemma isin_In (x : string) (values : list string) :
  isin x values = true <-> In x values.
Proof. apply existsb_eqb_In. Qed.

Lemma unique_In (x : string) (xs : list string) : In x (unique xs) <-> In x xs.
Proof.
  induction xs as [|y rest IH]; cbn; [reflexivity|].
  rewrite filter_In, IH, negb_true_iff, String.eqb_neq.
  destruct (string_dec y x) as [->|Hne]; [tauto|].
  split.
  - intros [H | [H _]]; auto.
  - intros [H | H]; [auto|]. right. split; [exact H | congruence].
Qed.

Lemma select_In (sel : list string) (f : Transaction -> bool)
    (l : list Transaction) (t : Transaction) :
  In t (match sel with [] => l | _ :: _ => filter f l end) <->
  In t l /\ (sel = [] \/ f t = true).
Proof.
  destruct sel as [|x rest].
  - split; [intros H; split; auto | intros [H _]; exact H].
  - rewrite filter_In. split; intros [H1 H2]; split; auto.
    destruct H2 as [H2 | H2]; [discriminate H2 | exact H2].
Qed.

Lemma select_as_filter (sel : list string) (f : Transaction -> bool)
    (l : list Transaction) :
  match sel with [] => l | _ :: _ => filter f l end
  = filter (fun t => match sel with [] => true | _ :: _ => f t end) l.
Proof.
  destruct sel; [|reflexivity]. symmetry. now apply filter_all.
Qed.

Lemma filter_filter {A : Type} (f g : A -> bool) (l : list A) :
  filter f (filter g l) = filter (fun x => g x && f x) l.
Proof.
  induction l as [|x rest IH]; cbn; [reflexivity|].
  destruct (g x); cbn; [|exact IH].
  destruct (f x); now rewrite IH.
Qed.

Lemma project_selected (t : Transaction) (proj_filter : list string) :
  match t_project t with
  | Some p => isin p proj_filter
  | None => false
  end = true <->
  exists p, t_project t = Some p /\ In p proj_filter.
Proof.
  destruct (t_project t) as [p|]; split.
  - intros H. exists p. split; [reflexivity | now apply isin_In].
  - intros [q [E Hin]]. inversion E; subst. now apply isin_In.
  - discriminate.
  - intros [q [E _]]. discriminate.
Qed.

(** X17. The selections of the transaction list: a row is shown exactly
    when it passes each selection that is not empty, a selection of
    projects hiding every row without a project; the rows shown keep the
    order of the query; and the selection the page starts with (every
    type, no category, no project) shows every row. *)
Theorem main_filtered_df_selects
    (type_filter cat_filter proj_filter : list string) (df : list Transaction) :
  (forall t,
      In t (main_filtered_df type_filter cat_filter proj_filter df) <->
      In t df /\
      (type_filter = [] \/ In (t_type t) type_filter) /\
      (cat_filter = [] \/ In (t_category t) cat_filter) /\
      (proj_filter = [] \/
       exists p, t_project t = Some p /\ In p proj_filter)) /\
  (exists keep, main_filtered_df type_filter cat_filter proj_filter df
                = filter keep df) /\
  main_filtered_df (unique (map t_type df)) [] [] df = df.
Proof.
  split; [|split].
  - intros t. unfold main_filtered_df. cbv zeta.
    rewrite (select_In proj_filter), (select_In cat_filter),
      (select_In type_filter).
    rewrite project_selected, !isin_In. tauto.
  - unfold main_filtered_df. cbv zeta.
    rewrite (select_as_filter type_filter), (select_as_filter cat_filter),
      (select_as_filter proj_filter), !filter_filter.
    eexists. reflexivity.
  - unfold main_filtered_df. cbv zeta.
    rewrite (select_as_filter (unique (map t_type df))).
    apply filter_all. intros t Hin.
    destruct (unique (map t_type df)) eqn:E; [reflexivity|]. rewrite <- E.
    apply isin_In, unique_In. now apply in_map.
Qed.

(** ** The most recent rows *)




(** ** The transaction form *)

Lemma project_list_In (db : Db) (choice : string) :
  In choice (project_list db) ->
  choice = no_project \/ exists p, In p (get_projects db) /\ p_name p = choice.
Proof.
  unfold project_list. destruct (get_projects db) as [|p ps].
  - intros [H | []]. now left.
  - intros [H | H]; [now left|]. right.
    apply in_map_iff in H. destruct H as [q [Hq Hin]]. exists q. auto.
Qed.

(** X21. Every row the form writes has one of the two types, a category
    of that type's list, an amount above zero, and either no project or
    the name of a project that is active at that moment; the form never
    attributes a row to a project named [없음].  The rows the ledger had
    are kept. *)
Theorem main_transaction_form_entries
    (db : Db) (now : string) (trans_date : Date)
    (trans_type category choice description : string) (amount : Q) :
  In trans_type type_options ->
  In category (category_options trans_type) ->
  In choice (project_list db) ->
  let db' := fst (main_transaction_form db now trans_date trans_type category
                    choice description amount) in
  (forall t, In t (transactions db') ->
             In t (transactions db) \/ form_entry db t) /\
  (forall t, In t (transactions db) -> In t (transactions db')) /\
  projects db' = projects db.
Proof.
  intros Htype Hcat Hchoice. cbv zeta.
  unfold main_transaction_form, main_save_transaction.
  destruct (Qlt_bool 0 amount) eqn:Epos; cbn [fst].
  - apply Qlt_bool_iff in Epos. cbn [add_transaction transactions projects].
    split; [|split; [|reflexivity]].
    + intros t Hin. apply in_app_or in Hin.
      destruct Hin as [Hin | [<- | []]]; [now left|]. right.
      unfold form_entry. cbn [t_type t_category t_amount t_project].
      repeat split; auto.
      destruct (String.eqb choice no_project) eqn:Ec; [now left|]. right.
      apply String.eqb_neq in Ec.
      destruct (project_list_In db choice Hchoice) as [-> | [p [Hp Hn]]];
        [congruence|].
      exists p. subst choice. auto.
    + intros t Hin. apply in_or_app. now left.
  - split; [|split; [|reflexivity]]; auto.
Qed.

Lemma main_transaction_form_entries_witness :
  form_entry sample_db
    (mkTransaction 5 (mkDate 2024 6 1) income_label "자문료" (Some "A")
       (Some "") 1000 "2024-06-01 10:00:00").
Proof.
  destruct (main_transaction_form_entries sample_db "2024-06-01 10:00:00"
              (mkDate 2024 6 1) income_label "자문료" "A" "" 1000)
    as [Hnew _].
  - left. reflexivity.
  - right. left. reflexivity.
  - right. left. reflexivity.
  - destruct (Hnew (mkTransaction 5 (mkDate 2024 6 1) income_label "자문료"
                      (Some "A") (Some "") 1000 "2024-06-01 10:00:00"))
      as [Hold | Hentry].
    + cbn. auto 6.
    + cbn in Hold. intuition discriminate.
    + exact Hentry.
Defined.

(** ** The columns of the monthly report *)





(** ** The rows of the profitability frame *)



(** X23. On the income statement no category is listed twice on a side,
    and a category is listed on the Income side, or on the Expense side,
    exactly when a record of that type carries it: a category used by
    expenses only does not appear among the income. *)
Theorem main_income_statement_categories
    (df : list Transaction) (income_df expense_df : list (string * Q))
    (income_total expense_total net_profit : Q) :
  main_income_statement df
  = Some (income_df, expense_df, income_total, expense_total, net_profit) ->
  NoDup (map fst income_df) /\ NoDup (map fst expense_df) /\
  (forall c, In c (map fst income_df) <->
             exists t, In t df /\ t_type t = income_label /\ t_category t = c) /\
  (forall c, In c (map fst expense_df) <->
             exists t, In t df /\ t_type t = expense_label /\ t_category t = c) /\
  net_profit = sum (map snd income_df) - sum (map snd expense_df).
Proof.
  intros E. destruct df as [|t0 rest]; [discriminate|].
  set (df := t0 :: rest) in *. unfold main_income_statement in E.
  cbv zeta in E. inversion E; subst; clear E.
  assert (Hnd : forall label, NoDup (map fst (category_sums label df))).
  { intros label. unfold category_sums. rewrite map_map. cbn [fst].
    rewrite map_id. apply group_keys_NoDup. }
  repeat split; try apply Hnd; try apply category_sums_keys;
    try (intros H; now apply category_sums_keys).
Qed.

Lemma main_income_statement_categories_witness :
  NoDup (map fst (category_sums income_label sample_ledger)) /\
  map fst (category_sums expense_label sample_ledger) = ["기타"].
Proof.
  split.
  - apply (main_income_statement_categories sample_ledger _ _ _ _ _ eq_refl).
  - reflexivity.
Defined.
